(** * Initial register context of a new thread on the Renesas SH-1

    A shallow embedding of [arch/renesas/src/sh1/sh1_initialstate.c]:
    the status-register read [up_getsr] and the routine
    [up_initial_state], which fills in the processor specific part of a
    freshly created task control block.

    The C function mutates the TCB through a pointer and reads two pieces
    of state that live outside it (the global [g_idle_topstack] and the
    processor's status register).  It is therefore embedded as a command
    of a small state-and-error monad over a [machine]: a store of TCBs
    addressed by pointer, the global, and the status register.  [None] is
    the model's rendering of C undefined behaviour (a dangling TCB pointer,
    a register index outside the [regs] array). *)

From stdpp Require Import base option list gmap strings.
From Stdlib Require Import ZArith Lia.

Local Open Scope Z_scope.

(** ** 32-bit machine arithmetic *)

(** Conversion to [uint32_t]: unsigned 32-bit wrap-around. *)
Definition uint32 (x : Z) : Z := x mod 2 ^ 32.

(** The values a [uint32_t], a [size_t] and a pointer can hold on SH-1. *)
Definition is_uint32 (x : Z) : Prop := 0 <= x < 2 ^ 32.

(** The interrupt mask bits I3..I0 of the SH-1 status register, the
    literal [0x000000f0] of the source. *)
Definition SR_IMASK : Z := 0xf0.

(** ** Data model *)

(** [struct xcptcontext]: the register save area.  Its declaration is in
    a header outside this development; [regs] is the only member
    [up_initial_state] names. *)
Record xcptcontext : Type := mk_xcptcontext { regs : list Z }.

(** [struct tcb_s], restricted to the members [up_initial_state] reads
    or writes.  Pointers are kept as the addresses they hold. *)
Record tcb_s : Type := mk_tcb {
  pid             : Z;             (* pid_t pid                      *)
  start           : Z;             (* start_t start: entry address   *)
  stack_alloc_ptr : Z;             (* void *stack_alloc_ptr          *)
  stack_base_ptr  : Z;             (* void *stack_base_ptr           *)
  adj_stack_size  : Z;             (* size_t adj_stack_size          *)
  xcp             : xcptcontext    (* struct xcptcontext xcp         *)
}.

(** Assignment to one member, the others kept. *)
Definition set_stack_alloc_ptr (v : Z) (t : tcb_s) : tcb_s :=
  mk_tcb (pid t) (start t) v (stack_base_ptr t) (adj_stack_size t) (xcp t).
Definition set_stack_base_ptr (v : Z) (t : tcb_s) : tcb_s :=
  mk_tcb (pid t) (start t) (stack_alloc_ptr t) v (adj_stack_size t) (xcp t).
Definition set_adj_stack_size (v : Z) (t : tcb_s) : tcb_s :=
  mk_tcb (pid t) (start t) (stack_alloc_ptr t) (stack_base_ptr t) v (xcp t).
Definition set_xcp (x : xcptcontext) (t : tcb_s) : tcb_s :=
  mk_tcb (pid t) (start t) (stack_alloc_ptr t) (stack_base_ptr t)
         (adj_stack_size t) x.

(** Everything the routine can observe or change: the processor's status
    register, the global [g_idle_topstack], and the TCBs in memory, keyed
    by their address. *)
Record machine : Type := mk_machine {
  hw_sr           : Z;
  g_idle_topstack : Z;
  tcbs            : gmap Z tcb_s
}.

Definition set_tcbs (h : gmap Z tcb_s) (m : machine) : machine :=
  mk_machine (hw_sr m) (g_idle_topstack m) h.

(** ** Build-time constants *)

(** The Kconfig options the translation unit tests.  An [#ifdef] option
    is a [bool]: defined or not. *)
Record kconfig : Type := mk_kconfig {
  CONFIG_IDLETHREAD_STACKSIZE : Z;
  CONFIG_SUPPRESS_INTERRUPTS  : bool;
  CONFIG_BUILD_KERNEL         : bool
}.

(** What the absent architecture headers declare: the size of
    [struct task_info_s], the length of the [regs] array and the indices
    of the three slots the routine writes.  They are parameters of the
    development. *)
Record arch_decls : Type := mk_arch_decls {
  sizeof_task_info_s : Z;
  XCPTCONTEXT_REGS   : nat;
  REG_SP             : nat;
  REG_PC             : nat;
  REG_SR             : nat
}.

(** The two facts about the register layout the routine relies on: the
    three indices lie inside the array and name three different slots. *)
Record layout_ok (h : arch_decls) : Prop := mk_layout_ok {
  sp_in_range : (REG_SP h < XCPTCONTEXT_REGS h)%nat;
  pc_in_range : (REG_PC h < XCPTCONTEXT_REGS h)%nat;
  sr_in_range : (REG_SR h < XCPTCONTEXT_REGS h)%nat;
  sp_pc_apart : REG_SP h ≠ REG_PC h;
  sp_sr_apart : REG_SP h ≠ REG_SR h;
  pc_sr_apart : REG_PC h ≠ REG_SR h
}.

(** ** The command monad *)

(** A command runs on a machine and either goes wrong ([None]) or yields
    a value and the machine it leaves behind. *)
Definition exec (A : Type) : Type := machine → option (A * machine).

#[global] Instance exec_ret : MRet exec :=
  λ A (a : A) (m : machine), Some (a, m).

#[global] Instance exec_bind : MBind exec :=
  λ A B (f : A → exec B) (c : exec A) (m : machine),
    match c m with
    | Some (a, m') => f a m'
    | None => None
    end.

(** [tcb->field] as an rvalue. *)
Definition deref {A : Type} (tcb : Z) (field : tcb_s → A) : exec A :=
  λ m, match tcbs m !! tcb with
       | Some t => Some (field t, m)
       | None => None
       end.

(** [tcb->field = v], given as the member update [upd]. *)
Definition assign (tcb : Z) (upd : tcb_s → tcb_s) : exec unit :=
  λ m, match tcbs m !! tcb with
       | Some t => Some ((), set_tcbs (<[tcb := upd t]> (tcbs m)) m)
       | None => None
       end.

(** Reading the global [g_idle_topstack]. *)
Definition load_g_idle_topstack : exec Z :=
  λ m, Some (g_idle_topstack m, m).

(** [up_getsr]: [stc sr, %0] copies the status register into the result
    and changes nothing. *)
Definition up_getsr : exec Z :=
  λ m, Some (hw_sr m, m).

Section sh1_initialstate.

Context (k : kconfig) (h : arch_decls).

(** [memset(xcp, 0, sizeof(struct xcptcontext))] with [xcp = &tcb->xcp]:
    every slot of the save area becomes zero, whatever it held. *)
Definition memset_xcp (tcb : Z) : exec unit :=
  assign tcb (set_xcp (mk_xcptcontext (replicate (XCPTCONTEXT_REGS h) 0))).

(** [xcp->regs[i] = v] with [xcp = &tcb->xcp].  A store outside the
    array is undefined in C and goes wrong here. *)
Definition store_reg (tcb : Z) (i : nat) (v : Z) : exec unit :=
  λ m, match tcbs m !! tcb with
       | Some t =>
           if decide (i < length (regs (xcp t)))%nat
           then Some ((), set_tcbs
                 (<[tcb := set_xcp (mk_xcptcontext (<[i := v]> (regs (xcp t)))) t]>
                    (tcbs m)) m)
           else None
       | None => None
       end.

(** [up_initial_state], statement by statement. *)
Definition up_initial_state (tcb : Z) : exec unit :=
  p ← deref tcb pid;
  (if decide (p = 0) then
     top ← load_g_idle_topstack;
     assign tcb (set_stack_alloc_ptr
                   (uint32 (top - CONFIG_IDLETHREAD_STACKSIZE k)));;
     a ← deref tcb stack_alloc_ptr;
     assign tcb (set_stack_base_ptr a);;
     assign tcb (set_adj_stack_size
                   (uint32 (CONFIG_IDLETHREAD_STACKSIZE k
                            - sizeof_task_info_s h)))
   else mret ());;
  memset_xcp tcb;;
  base ← deref tcb stack_base_ptr;
  size ← deref tcb adj_stack_size;
  store_reg tcb (REG_SP h) (uint32 (uint32 base + size));;
  entry ← deref tcb start;
  store_reg tcb (REG_PC h) (uint32 entry);;
  sr ← up_getsr;
  store_reg tcb (REG_SR h)
    (uint32 (if CONFIG_SUPPRESS_INTERRUPTS k
             then Z.lor sr SR_IMASK
             else Z.land sr (Z.lnot SR_IMASK))).

End sh1_initialstate.

(** ** The translation unit under a configuration *)

(** What building the file gives: the compiled routine, or the
    diagnostic of an [#error] directive. *)
Inductive build_result : Type :=
  | Built (routine : Z → exec unit)
  | BuildError (msg : string).

(** The preprocessor conditional of lines 108-110: with
    [CONFIG_BUILD_KERNEL] defined the [#error] is reached and nothing is
    compiled; otherwise the unit provides [up_initial_state]. *)
Definition sh1_initialstate_c (k : kconfig) (h : arch_decls) : build_result :=
  if CONFIG_BUILD_KERNEL k
  then BuildError "Missing logic for the CONFIG_BUILD_KERNEL build"
  else Built (up_initial_state k h).

(** Writing TCB [t] at address [p]. *)
Definition put_tcb (p : Z) (t : tcb_s) (m : machine) : machine :=
  set_tcbs (<[p := t]> (tcbs m)) m.

(** [runs_to k h p m m' t']: called with [tcb = p] on machine [m], the
    routine returns and leaves machine [m'], whose TCB at [p] is [t']. *)
Definition runs_to (k : kconfig) (h : arch_decls) (p : Z)
    (m m' : machine) (t' : tcb_s) : Prop :=
  up_initial_state k h p m = Some ((), m') ∧ tcbs m' !! p = Some t'.

(** ** The outcome in closed form *)

(** The machine the routine leaves, written without the monad.  These
    definitions serve the proofs: [up_initial_state_run] below shows that
    running the routine gives exactly this. *)

Section outcome.

Context (k : kconfig) (h : arch_decls).

(** The stack members as the idle-thread branch leaves them. *)
Definition resolve_stack (m : machine) (t : tcb_s) : tcb_s :=
  if decide (pid t = 0) then
    mk_tcb (pid t) (start t)
           (uint32 (g_idle_topstack m - CONFIG_IDLETHREAD_STACKSIZE k))
           (uint32 (g_idle_topstack m - CONFIG_IDLETHREAD_STACKSIZE k))
           (uint32 (CONFIG_IDLETHREAD_STACKSIZE k - sizeof_task_info_s h))
           (xcp t)
  else t.

(** The value stored in the status-register slot. *)
Definition initial_sr (sr : Z) : Z :=
  uint32 (if CONFIG_SUPPRESS_INTERRUPTS k
          then Z.lor sr SR_IMASK
          else Z.land sr (Z.lnot SR_IMASK)).

(** The save area after the wipe and the three stores. *)
Definition initial_regs (m : machine) (t : tcb_s) : list Z :=
  <[REG_SR h := initial_sr (hw_sr m)]>
    (<[REG_PC h := uint32 (start t)]>
       (<[REG_SP h := uint32 (uint32 (stack_base_ptr t) + adj_stack_size t)]>
          (replicate (XCPTCONTEXT_REGS h) 0))).

Definition final_tcb (m : machine) (t : tcb_s) : tcb_s :=
  set_xcp (mk_xcptcontext (initial_regs m (resolve_stack m t)))
          (resolve_stack m t).

End outcome.

(** ** Worked inputs *)

(** A register layout for the worked inputs: 22 slots with the stack
    pointer, program counter and status register at 9, 20 and 21, and an
    auxiliary block of [0x40] bytes. *)
Definition example_decls : arch_decls := mk_arch_decls 0x40 22 9 20 21.

(** The three builds of the worked inputs, each with an idle stack of
    [0x1000] bytes: interrupts left unmasked, interrupts suppressed, and
    the kernel build. *)
Definition unmasked_kconfig : kconfig := mk_kconfig 0x1000 false false.
Definition masked_kconfig : kconfig := mk_kconfig 0x1000 true false.
Definition kernel_kconfig : kconfig := mk_kconfig 0x1000 false true.

(** The idle scenario: the idle thread's TCB, with a stale save area, on
    a machine whose idle stack area ends at [0x8000] and whose status
    register reads [0xf3]. *)
Definition idle_tcb : tcb_s :=
  mk_tcb 0 0x1000 0 0 0 (mk_xcptcontext (replicate 22 0xdeadbeef)).

Definition idle_machine : machine :=
  mk_machine 0x000000f3 0x8000 {[ 0x4000 := idle_tcb ]}.

(** The task scenario: task 5 entered at [0x1000] on the stack
    [{base = 0x2000, size = 0x400}], next to a second task with the same
    entry and stack values but another pid, allocation pointer and stale
    save area. *)
Definition task_tcb : tcb_s :=
  mk_tcb 5 0x1000 0x1ff0 0x2000 0x400 (mk_xcptcontext (replicate 22 0xdeadbeef)).

Definition twin_tcb : tcb_s :=
  mk_tcb 6 0x1000 0x1f00 0x2000 0x400 (mk_xcptcontext (replicate 22 0x55aa55aa)).

Definition task_machine : machine :=
  mk_machine 0x000000f3 0x8000 {[ 0x4000 := task_tcb; 0x5000 := twin_tcb ]}.

(** Two further builds: an idle stack of [0x2000] bytes, and one of
    [0x20] bytes, smaller than the auxiliary block of [example_decls]. *)
Definition wide_kconfig : kconfig := mk_kconfig 0x2000 false false.
Definition cramped_kconfig : kconfig := mk_kconfig 0x20 false false.

(** The same declarations with another size for [struct task_info_s]. *)
Definition set_sizeof_task_info_s (aux : Z) (h : arch_decls) : arch_decls :=
  mk_arch_decls aux (XCPTCONTEXT_REGS h) (REG_SP h) (REG_PC h) (REG_SR h).

(** The same machine with another value in [g_idle_topstack]. *)
Definition set_g_idle_topstack (top : Z) (m : machine) : machine :=
  mk_machine (hw_sr m) top (tcbs m).

(** ** Running the commands *)

(** Closes [layout_ok] for a concrete layout. *)
Ltac layout_by_computation := constructor; cbn; lia.

Lemma put_tcb_lookup p t m : tcbs (put_tcb p t m) !! p = Some t.
Proof. apply lookup_insert_eq. Qed.

Lemma put_tcb_lookup_ne p q t m :
  p ≠ q → tcbs (put_tcb p t m) !! q = tcbs m !! q.
Proof. intros Hpq. by apply lookup_insert_ne. Qed.

Lemma put_tcb_put_tcb p t t' m :
  put_tcb p t' (put_tcb p t m) = put_tcb p t' m.
Proof. unfold put_tcb, set_tcbs; cbn. by rewrite insert_insert_eq. Qed.

Lemma put_tcb_same p t m : tcbs m !! p = Some t → put_tcb p t m = m.
Proof.
  intros Hp. destruct m as [sr top hp]; unfold put_tcb, set_tcbs; cbn in *.
  by rewrite insert_id.
Qed.

Lemma bind_run {A B : Type} (c : exec A) (f : A → exec B) m a m' :
  c m = Some (a, m') → (c ≫= f) m = f a m'.
Proof. intros Hc. unfold mbind, exec_bind. by rewrite Hc. Qed.

Lemma deref_run {A : Type} p (field : tcb_s → A) t m :
  deref p field (put_tcb p t m) = Some (field t, put_tcb p t m).
Proof. unfold deref. by rewrite put_tcb_lookup. Qed.

Lemma assign_run p upd t m :
  assign p upd (put_tcb p t m) = Some ((), put_tcb p (upd t) m).
Proof.
  unfold assign. rewrite put_tcb_lookup.
  exact (f_equal (λ m', Some ((), m')) (put_tcb_put_tcb p t (upd t) m)).
Qed.

Lemma store_reg_run p i v t m :
  (i < length (regs (xcp t)))%nat →
  store_reg p i v (put_tcb p t m)
  = Some ((), put_tcb p (set_xcp (mk_xcptcontext (<[i := v]> (regs (xcp t)))) t) m).
Proof.
  intros Hi. unfold store_reg. rewrite put_tcb_lookup.
  rewrite decide_True by done.
  exact (f_equal (λ m', Some ((), m')) (put_tcb_put_tcb p t _ m)).
Qed.

Lemma store_reg_out_of_range p i v t m :
  (length (regs (xcp t)) ≤ i)%nat → store_reg p i v (put_tcb p t m) = None.
Proof.
  intros Hi. unfold store_reg. rewrite put_tcb_lookup.
  rewrite decide_False; [done | lia].
Qed.

Section outcome_run.

Context (k : kconfig) (h : arch_decls).

(** The idle-thread branch, run on its own. *)
Lemma idle_branch_run p t m :
  (if decide (pid t = 0) then
     top ← load_g_idle_topstack;
     assign p (set_stack_alloc_ptr
                 (uint32 (top - CONFIG_IDLETHREAD_STACKSIZE k)));;
     a ← deref p stack_alloc_ptr;
     assign p (set_stack_base_ptr a);;
     assign p (set_adj_stack_size
                 (uint32 (CONFIG_IDLETHREAD_STACKSIZE k
                          - sizeof_task_info_s h)))
   else mret ()) (put_tcb p t m)
  = Some ((), put_tcb p (resolve_stack k h m t) m).
Proof.
  unfold resolve_stack. destruct (decide (pid t = 0)) as [Hidle | Htask].
  - erewrite bind_run by reflexivity. cbn [g_idle_topstack put_tcb set_tcbs].
    erewrite bind_run by apply assign_run.
    erewrite bind_run by apply deref_run.
    erewrite bind_run by apply assign_run.
    rewrite assign_run. reflexivity.
  - reflexivity.
Qed.

(** With a TCB at [p] and a sound register layout the routine runs to
    completion, and the machine it leaves differs from the initial one
    in the TCB at [p] alone, which has become [final_tcb]. *)
Lemma up_initial_state_run p t m :
  layout_ok h →
  tcbs m !! p = Some t →
  up_initial_state k h p m = Some ((), put_tcb p (final_tcb k h m t) m).
Proof.
  intros [Hsp Hpc Hsr _ _ _] Hp.
  rewrite <- (put_tcb_same p t m Hp) at 1.
  unfold up_initial_state.
  erewrite bind_run by apply deref_run.
  erewrite bind_run by apply idle_branch_run.
  unfold memset_xcp.
  erewrite bind_run by apply assign_run.
  erewrite bind_run by apply deref_run.
  erewrite bind_run by apply deref_run.
  erewrite bind_run
    by (apply store_reg_run; cbn; by rewrite length_replicate).
  erewrite bind_run by apply deref_run.
  erewrite bind_run
    by (apply store_reg_run; cbn; by rewrite length_insert, length_replicate).
  erewrite bind_run by reflexivity.
  rewrite store_reg_run
    by (cbn; by rewrite !length_insert, length_replicate).
  reflexivity.
Qed.

End outcome_run.

(** ** Facts about 32-bit arithmetic *)


Lemma uint32_small x : is_uint32 x → uint32 x = x.
Proof. unfold is_uint32, uint32. intros Hx. by apply Z.mod_small. Qed.

Lemma uint32_add_l a b : uint32 (uint32 a + b) = uint32 (a + b).
Proof. unfold uint32. apply Zplus_mod_idemp_l. Qed.

Lemma uint32_add a b : uint32 (uint32 a + uint32 b) = uint32 (a + b).
Proof. unfold uint32. symmetry. apply Zplus_mod. Qed.

Lemma uint32_testbit x n :
  0 <= n → Z.testbit (uint32 x) n = (n <? 32) && Z.testbit x n.
Proof.
  intros Hn. unfold uint32. destruct (Z.ltb_spec n 32) as [Hlt | Hge].
  - by rewrite Z.mod_pow2_bits_low.
  - rewrite Z.mod_pow2_bits_high; [done | lia].
Qed.

Lemma SR_IMASK_testbit n :
  0 <= n → Z.testbit SR_IMASK n = (4 <=? n) && (n <? 8).
Proof.
  intros Hn. change SR_IMASK with (Z.shiftl (Z.ones 4) 4).
  rewrite Z.shiftl_spec by done.
  destruct (Z.leb_spec 4 n) as [Hge | Hlt].
  - rewrite Z.testbit_ones by lia.
    replace (0 <=? n - 4) with true by (symmetry; apply Z.leb_le; lia).
    cbn [andb]. destruct (Z.ltb_spec (n - 4) 4), (Z.ltb_spec n 8); done || lia.
  - rewrite Z.testbit_neg_r by lia. done.
Qed.

(** Bit [n] of [sr | 0xf0] and of [sr & ~0xf0]. *)
Lemma lor_imask_testbit sr n :
  0 <= n →
  Z.testbit (Z.lor sr SR_IMASK) n
  = if (4 <=? n) && (n <? 8) then true else Z.testbit sr n.
Proof.
  intros Hn. rewrite Z.lor_spec, SR_IMASK_testbit by done.
  destruct ((4 <=? n) && (n <? 8)); [apply orb_true_r | apply orb_false_r].
Qed.

Lemma land_not_imask_testbit sr n :
  0 <= n →
  Z.testbit (Z.land sr (Z.lnot SR_IMASK)) n
  = if (4 <=? n) && (n <? 8) then false else Z.testbit sr n.
Proof.
  intros Hn. rewrite Z.land_spec, Z.lnot_spec, SR_IMASK_testbit by done.
  destruct ((4 <=? n) && (n <? 8)); [apply andb_false_r | apply andb_true_r].
Qed.

Lemma is_uint32_high_bits x n :
  is_uint32 x → 32 <= n → Z.testbit x n = false.
Proof.
  intros Hx Hn. rewrite <- (uint32_small x Hx), uint32_testbit by lia.
  destruct (Z.ltb_spec n 32); [lia | done].
Qed.

(** On a 32-bit status word neither operation leaves the 32-bit range,
    so the conversion on the store changes nothing. *)
Lemma uint32_lor_imask sr :
  is_uint32 sr → uint32 (Z.lor sr SR_IMASK) = Z.lor sr SR_IMASK.
Proof.
  intros Hsr. apply Z.bits_inj'. intros n Hn.
  rewrite uint32_testbit, lor_imask_testbit by done.
  destruct (Z.ltb_spec n 32) as [Hlt | Hge]; [done |].
  rewrite (is_uint32_high_bits sr n Hsr Hge).
  destruct (Z.leb_spec 4 n), (Z.ltb_spec n 8); done || lia.
Qed.

Lemma uint32_land_not_imask sr :
  is_uint32 sr →
  uint32 (Z.land sr (Z.lnot SR_IMASK)) = Z.land sr (Z.lnot SR_IMASK).
Proof.
  intros Hsr. apply Z.bits_inj'. intros n Hn.
  rewrite uint32_testbit, land_not_imask_testbit by done.
  destruct (Z.ltb_spec n 32) as [Hlt | Hge]; [done |].
  rewrite (is_uint32_high_bits sr n Hsr Hge).
  by destruct ((4 <=? n) && (n <? 8)).
Qed.

(** ** Facts about the final save area *)

Section outcome_facts.

Context (k : kconfig) (h : arch_decls) (Hlayout : layout_ok h).

Lemma initial_regs_length m t :
  length (initial_regs k h m t) = XCPTCONTEXT_REGS h.
Proof. unfold initial_regs. by rewrite !length_insert, length_replicate. Qed.

Lemma initial_regs_sp m t :
  initial_regs k h m t !! REG_SP h
  = Some (uint32 (uint32 (stack_base_ptr t) + adj_stack_size t)).
Proof.
  destruct Hlayout as [Hsp Hpc Hsr Hsp_pc Hsp_sr Hpc_sr]. unfold initial_regs.
  rewrite list_lookup_insert_ne by done.
  rewrite list_lookup_insert_ne by done.
  apply list_lookup_insert_eq. by rewrite length_replicate.
Qed.

Lemma initial_regs_pc m t :
  initial_regs k h m t !! REG_PC h = Some (uint32 (start t)).
Proof.
  destruct Hlayout as [Hsp Hpc Hsr Hsp_pc Hsp_sr Hpc_sr]. unfold initial_regs.
  rewrite list_lookup_insert_ne by done.
  apply list_lookup_insert_eq. by rewrite length_insert, length_replicate.
Qed.

Lemma initial_regs_sr m t :
  initial_regs k h m t !! REG_SR h = Some (initial_sr k (hw_sr m)).
Proof.
  destruct Hlayout as [Hsp Hpc Hsr Hsp_pc Hsp_sr Hpc_sr]. unfold initial_regs.
  apply list_lookup_insert_eq. by rewrite !length_insert, length_replicate.
Qed.

Lemma initial_regs_other m t i :
  (i < XCPTCONTEXT_REGS h)%nat →
  i ≠ REG_SP h → i ≠ REG_PC h → i ≠ REG_SR h →
  initial_regs k h m t !! i = Some 0.
Proof.
  intros Hi Hsp Hpc Hsr. unfold initial_regs.
  rewrite !list_lookup_insert_ne by done.
  by apply lookup_replicate_2.
Qed.

(** The save area is built from the entry address, the resolved stack
    members and the status register, and from nothing else. *)
Lemma initial_regs_ext m1 m2 t1 t2 :
  start t1 = start t2 →
  stack_base_ptr t1 = stack_base_ptr t2 →
  adj_stack_size t1 = adj_stack_size t2 →
  hw_sr m1 = hw_sr m2 →
  initial_regs k h m1 t1 = initial_regs k h m2 t2.
Proof. unfold initial_regs. by intros -> -> -> ->. Qed.

Lemma resolve_stack_task m t : pid t ≠ 0 → resolve_stack k h m t = t.
Proof. intros Hpid. unfold resolve_stack. by rewrite decide_False. Qed.

Lemma resolve_stack_idle m t :
  pid t = 0 →
  resolve_stack k h m t
  = mk_tcb (pid t) (start t)
      (uint32 (g_idle_topstack m - CONFIG_IDLETHREAD_STACKSIZE k))
      (uint32 (g_idle_topstack m - CONFIG_IDLETHREAD_STACKSIZE k))
      (uint32 (CONFIG_IDLETHREAD_STACKSIZE k - sizeof_task_info_s h))
      (xcp t).
Proof. intros Hpid. unfold resolve_stack. by rewrite decide_True. Qed.

Lemma resolve_stack_start m t : start (resolve_stack k h m t) = start t.
Proof. unfold resolve_stack. by destruct (decide (pid t = 0)). Qed.

Lemma resolve_stack_pid m t : pid (resolve_stack k h m t) = pid t.
Proof. unfold resolve_stack. by destruct (decide (pid t = 0)). Qed.

(** Bit by bit, the stored status word is the status register with the
    four mask bits forced to the configured value. *)
Lemma initial_sr_testbit sr n :
  0 <= n < 32 →
  Z.testbit (initial_sr k sr) n
  = if (4 <=? n) && (n <? 8)
    then CONFIG_SUPPRESS_INTERRUPTS k
    else Z.testbit sr n.
Proof.
  intros [Hlo Hhi]. unfold initial_sr. rewrite uint32_testbit by done.
  replace (n <? 32) with true by (symmetry; apply Z.ltb_lt; lia).
  cbn [andb]. destruct (CONFIG_SUPPRESS_INTERRUPTS k).
  - by apply lor_imask_testbit.
  - by apply land_not_imask_testbit.
Qed.

End outcome_facts.

(** What the idle-thread branch leaves in [final_tcb], in one place. *)
Lemma final_tcb_idle k h m t :
  layout_ok h →
  pid t = 0 →
  stack_alloc_ptr (final_tcb k h m t)
    = uint32 (g_idle_topstack m - CONFIG_IDLETHREAD_STACKSIZE k) ∧
  stack_base_ptr (final_tcb k h m t)
    = uint32 (g_idle_topstack m - CONFIG_IDLETHREAD_STACKSIZE k) ∧
  adj_stack_size (final_tcb k h m t)
    = uint32 (CONFIG_IDLETHREAD_STACKSIZE k - sizeof_task_info_s h) ∧
  regs (xcp (final_tcb k h m t)) !! REG_SP h
    = Some (uint32 (g_idle_topstack m - sizeof_task_info_s h)).
Proof.
  intros Hlayout Hpid. unfold final_tcb.
  rewrite (resolve_stack_idle k h m t Hpid). cbn.
  repeat (split; [reflexivity |]).
  rewrite initial_regs_sp by done. cbn.
  rewrite uint32_add_l, uint32_add. do 2 f_equal. lia.
Qed.

Lemma up_initial_state_runs_to k h p t m :
  layout_ok h →
  tcbs m !! p = Some t →
  runs_to k h p m (put_tcb p (final_tcb k h m t) m) (final_tcb k h m t).
Proof.
  intros Hlayout Hp. split.
  - by apply up_initial_state_run.
  - apply put_tcb_lookup.
Qed.

(** ** The claims *)

(** C3 (stack-top fidelity).  For every TCB, after [up_initial_state]
    the stack-pointer slot holds [tcb->stack_base_ptr +
    tcb->adj_stack_size], computed as the C expression is (in 32-bit
    unsigned arithmetic) from the stack members in effect after the
    idle-thread override; when that sum is a 32-bit address the slot holds
    the sum itself. *)
Theorem sp_slot_is_stack_top k h m p t :
  layout_ok h →
  tcbs m !! p = Some t →
  ∃ m' t', runs_to k h p m m' t' ∧
    regs (xcp t') !! REG_SP h
      = Some (uint32 (stack_base_ptr t' + adj_stack_size t')) ∧
    (is_uint32 (stack_base_ptr t' + adj_stack_size t') →
     regs (xcp t') !! REG_SP h
       = Some (stack_base_ptr t' + adj_stack_size t')).
Proof.
  intros Hlayout Hp.
  exists (put_tcb p (final_tcb k h m t) m), (final_tcb k h m t).
  split; [by apply up_initial_state_runs_to |].
  assert (regs (xcp (final_tcb k h m t)) !! REG_SP h
          = Some (uint32 (stack_base_ptr (final_tcb k h m t)
                          + adj_stack_size (final_tcb k h m t)))) as Hsp.
  { cbn. rewrite initial_regs_sp by done. by rewrite uint32_add_l. }
  split; [done |].
  intros Hfit. by rewrite Hsp, uint32_small.
Qed.

Lemma sp_slot_is_stack_top_witness :
  layout_ok example_decls ∧
  tcbs task_machine !! 0x4000 = Some task_tcb ∧
  ∃ m' t', runs_to unmasked_kconfig example_decls 0x4000 task_machine m' t' ∧
    regs (xcp t') !! REG_SP example_decls
      = Some (uint32 (stack_base_ptr t' + adj_stack_size t')) ∧
    (is_uint32 (stack_base_ptr t' + adj_stack_size t') →
     regs (xcp t') !! REG_SP example_decls
       = Some (stack_base_ptr t' + adj_stack_size t')).
Proof.
  split; [layout_by_computation |]. split; [reflexivity |].
  apply (sp_slot_is_stack_top unmasked_kconfig example_decls task_machine
           0x4000 task_tcb); [layout_by_computation | reflexivity].
Defined.

(** C4 (entry-point fidelity).  For every TCB, whatever its pid (zero
    included), after [up_initial_state] the program-counter slot holds
    [(uint32_t)tcb->start]: the entry address itself, for an entry that
    is a 32-bit address.  The member [start] is left as it was. *)
Theorem pc_slot_is_entry_point k h m p t :
  layout_ok h →
  tcbs m !! p = Some t →
  ∃ m' t', runs_to k h p m m' t' ∧
    start t' = start t ∧
    regs (xcp t') !! REG_PC h = Some (uint32 (start t)) ∧
    (is_uint32 (start t) → regs (xcp t') !! REG_PC h = Some (start t)).
Proof.
  intros Hlayout Hp.
  exists (put_tcb p (final_tcb k h m t) m), (final_tcb k h m t).
  split; [by apply up_initial_state_runs_to |].
  assert (regs (xcp (final_tcb k h m t)) !! REG_PC h
          = Some (uint32 (start t))) as Hpc.
  { cbn. rewrite initial_regs_pc by done. by rewrite resolve_stack_start. }
  split; [cbn; apply resolve_stack_start |].
  split; [done |].
  intros Hfit. by rewrite Hpc, uint32_small.
Qed.

Lemma pc_slot_is_entry_point_witness :
  layout_ok example_decls ∧
  tcbs idle_machine !! 0x4000 = Some idle_tcb ∧
  ∃ m' t', runs_to unmasked_kconfig example_decls 0x4000 idle_machine m' t' ∧
    start t' = 0x1000 ∧
    regs (xcp t') !! REG_PC example_decls = Some (uint32 0x1000) ∧
    (is_uint32 0x1000 → regs (xcp t') !! REG_PC example_decls = Some 0x1000).
Proof.
  split; [layout_by_computation |]. split; [reflexivity |].
  apply (pc_slot_is_entry_point unmasked_kconfig example_decls idle_machine
           0x4000 idle_tcb); [layout_by_computation | reflexivity].
Defined.

(** C2 (zero invariant).  For every TCB, after [up_initial_state] the
    save area has its declared length and every slot other than the
    stack-pointer, program-counter and status slots holds zero, whatever
    the area held before. *)
Theorem other_slots_are_zero k h m p t :
  layout_ok h →
  tcbs m !! p = Some t →
  ∃ m' t', runs_to k h p m m' t' ∧
    length (regs (xcp t')) = XCPTCONTEXT_REGS h ∧
    ∀ i : nat, (i < XCPTCONTEXT_REGS h)%nat →
      i ≠ REG_SP h → i ≠ REG_PC h → i ≠ REG_SR h →
      regs (xcp t') !! i = Some 0.
Proof.
  intros Hlayout Hp.
  exists (put_tcb p (final_tcb k h m t) m), (final_tcb k h m t).
  split; [by apply up_initial_state_runs_to |].
  split; [apply initial_regs_length |].
  intros i Hi Hsp Hpc Hsr. by apply initial_regs_other.
Qed.

Lemma other_slots_are_zero_witness :
  layout_ok example_decls ∧
  tcbs task_machine !! 0x4000 = Some task_tcb ∧
  ∃ m' t', runs_to unmasked_kconfig example_decls 0x4000 task_machine m' t' ∧
    length (regs (xcp t')) = XCPTCONTEXT_REGS example_decls ∧
    ∀ i : nat, (i < XCPTCONTEXT_REGS example_decls)%nat →
      i ≠ REG_SP example_decls → i ≠ REG_PC example_decls →
      i ≠ REG_SR example_decls →
      regs (xcp t') !! i = Some 0.
Proof.
  split; [layout_by_computation |]. split; [reflexivity |].
  apply (other_slots_are_zero unmasked_kconfig example_decls task_machine
           0x4000 task_tcb); [layout_by_computation | reflexivity].
Defined.

(** C5 (interrupt policy).  Let [sr] be what [up_getsr] returns on the
    machine the routine is called on.  After [up_initial_state] the
    status slot holds [sr | 0x000000f0] when [CONFIG_SUPPRESS_INTERRUPTS]
    is defined and [sr & ~0x000000f0] otherwise, as stored in a
    [uint32_t]: bits 4 to 7 are all set, respectively all clear, and
    every other bit is the bit of [sr].  For a 32-bit [sr] the store
    truncates nothing. *)
Theorem sr_slot_follows_interrupt_policy k h m p t sr :
  layout_ok h →
  tcbs m !! p = Some t →
  up_getsr m = Some (sr, m) →
  ∃ m' t' v, runs_to k h p m m' t' ∧
    regs (xcp t') !! REG_SR h = Some v ∧
    v = uint32 (if CONFIG_SUPPRESS_INTERRUPTS k
                then Z.lor sr 0xf0
                else Z.land sr (Z.lnot 0xf0)) ∧
    (∀ n, 0 <= n < 32 →
       Z.testbit v n = if (4 <=? n) && (n <? 8)
                       then CONFIG_SUPPRESS_INTERRUPTS k
                       else Z.testbit sr n) ∧
    (is_uint32 sr →
       v = if CONFIG_SUPPRESS_INTERRUPTS k
           then Z.lor sr 0xf0
           else Z.land sr (Z.lnot 0xf0)).
Proof.
  intros Hlayout Hp Hsr.
  assert (sr = hw_sr m) as -> by (unfold up_getsr in Hsr; congruence).
  exists (put_tcb p (final_tcb k h m t) m), (final_tcb k h m t),
         (initial_sr k (hw_sr m)).
  split; [by apply up_initial_state_runs_to |].
  split; [cbn; by apply initial_regs_sr |].
  split; [reflexivity |].
  split; [intros n Hn; by apply initial_sr_testbit |].
  intros Hfit. unfold initial_sr. destruct (CONFIG_SUPPRESS_INTERRUPTS k).
  - by apply uint32_lor_imask.
  - by apply uint32_land_not_imask.
Qed.

Lemma sr_slot_follows_interrupt_policy_witness :
  layout_ok example_decls ∧
  tcbs task_machine !! 0x4000 = Some task_tcb ∧
  up_getsr task_machine = Some (0xf3, task_machine) ∧
  ∃ m' t' v, runs_to masked_kconfig example_decls 0x4000 task_machine m' t' ∧
    regs (xcp t') !! REG_SR example_decls = Some v ∧
    v = uint32 (if CONFIG_SUPPRESS_INTERRUPTS masked_kconfig
                then Z.lor 0xf3 0xf0
                else Z.land 0xf3 (Z.lnot 0xf0)) ∧
    (∀ n, 0 <= n < 32 →
       Z.testbit v n = if (4 <=? n) && (n <? 8)
                       then CONFIG_SUPPRESS_INTERRUPTS masked_kconfig
                       else Z.testbit 0xf3 n) ∧
    (is_uint32 0xf3 →
       v = if CONFIG_SUPPRESS_INTERRUPTS masked_kconfig
           then Z.lor 0xf3 0xf0
           else Z.land 0xf3 (Z.lnot 0xf0)).
Proof.
  split; [layout_by_computation |]. split; [reflexivity |].
  split; [reflexivity |].
  apply (sr_slot_follows_interrupt_policy masked_kconfig example_decls
           task_machine 0x4000 task_tcb 0xf3);
    [layout_by_computation | reflexivity | reflexivity].
Defined.

(** C6 (build-time rejection).  With [CONFIG_BUILD_KERNEL] defined the
    translation unit stops at its [#error] directive: building it yields
    the diagnostic and no routine, so no run-time path exists for that
    configuration. *)
Theorem build_kernel_is_rejected k h :
  CONFIG_BUILD_KERNEL k = true →
  sh1_initialstate_c k h
    = BuildError "Missing logic for the CONFIG_BUILD_KERNEL build" ∧
  ∀ routine, sh1_initialstate_c k h ≠ Built routine.
Proof.
  intros Hkernel. unfold sh1_initialstate_c. rewrite Hkernel.
  split; [reflexivity | discriminate].
Qed.

Lemma build_kernel_is_rejected_witness :
  CONFIG_BUILD_KERNEL kernel_kconfig = true ∧
  sh1_initialstate_c kernel_kconfig example_decls
    = BuildError "Missing logic for the CONFIG_BUILD_KERNEL build" ∧
  ∀ routine, sh1_initialstate_c kernel_kconfig example_decls ≠ Built routine.
Proof.
  split; [reflexivity |].
  apply (build_kernel_is_rejected kernel_kconfig example_decls). reflexivity.
Defined.

(** Without [CONFIG_BUILD_KERNEL] the unit builds, and what it provides
    is [up_initial_state]. *)
Lemma build_without_kernel k h :
  CONFIG_BUILD_KERNEL k = false →
  sh1_initialstate_c k h = Built (up_initial_state k h).
Proof. intros Hkernel. unfold sh1_initialstate_c. by rewrite Hkernel. Qed.

(** C7 (determinism, independence of prior content).  Under one build,
    take two non-idle TCBs, on the same or on different machines, with
    the same entry address, stack base and stack size, and let the status
    register read the same in both calls.  Then both calls return and the
    two register context images are equal, whatever either image, the
    pids or the allocation pointers were before. *)
Theorem images_agree_on_equal_inputs k h m1 m2 p1 p2 t1 t2 :
  layout_ok h →
  tcbs m1 !! p1 = Some t1 →
  tcbs m2 !! p2 = Some t2 →
  pid t1 ≠ 0 →
  pid t2 ≠ 0 →
  start t1 = start t2 →
  stack_base_ptr t1 = stack_base_ptr t2 →
  adj_stack_size t1 = adj_stack_size t2 →
  hw_sr m1 = hw_sr m2 →
  ∃ m1' t1' m2' t2',
    runs_to k h p1 m1 m1' t1' ∧
    runs_to k h p2 m2 m2' t2' ∧
    xcp t1' = xcp t2'.
Proof.
  intros Hlayout Hp1 Hp2 Hpid1 Hpid2 Hstart Hbase Hsize Hsr.
  exists (put_tcb p1 (final_tcb k h m1 t1) m1), (final_tcb k h m1 t1),
         (put_tcb p2 (final_tcb k h m2 t2) m2), (final_tcb k h m2 t2).
  split; [by apply up_initial_state_runs_to |].
  split; [by apply up_initial_state_runs_to |].
  cbn. f_equal. rewrite !resolve_stack_task by done.
  by apply initial_regs_ext.
Qed.

Lemma images_agree_on_equal_inputs_witness :
  layout_ok example_decls ∧
  tcbs task_machine !! 0x4000 = Some task_tcb ∧
  tcbs task_machine !! 0x5000 = Some twin_tcb ∧
  pid task_tcb ≠ 0 ∧
  pid twin_tcb ≠ 0 ∧
  xcp task_tcb ≠ xcp twin_tcb ∧
  ∃ m1' t1' m2' t2',
    runs_to unmasked_kconfig example_decls 0x4000 task_machine m1' t1' ∧
    runs_to unmasked_kconfig example_decls 0x5000 task_machine m2' t2' ∧
    xcp t1' = xcp t2'.
Proof.
  split; [layout_by_computation |]. split; [reflexivity |].
  split; [reflexivity |]. split; [discriminate |]. split; [discriminate |].
  split; [discriminate |].
  apply (images_agree_on_equal_inputs unmasked_kconfig example_decls
           task_machine task_machine 0x4000 0x5000 task_tcb twin_tcb);
    [layout_by_computation | reflexivity | reflexivity
    | discriminate | discriminate
    | reflexivity | reflexivity | reflexivity | reflexivity].
Defined.

(** C8 (frame).  For a non-idle TCB the call returns and the machine it
    leaves is the initial one with the register context image of that one
    TCB replaced: the TCB's pid, entry and the three stack members are
    what they were, every other TCB in memory is what it was, and neither
    the status register nor [g_idle_topstack] has changed. *)
Theorem non_idle_call_changes_xcp_only k h m p t :
  layout_ok h →
  tcbs m !! p = Some t →
  pid t ≠ 0 →
  ∃ m' t', runs_to k h p m m' t' ∧
    t' = set_xcp (xcp t') t ∧
    pid t' = pid t ∧
    start t' = start t ∧
    stack_alloc_ptr t' = stack_alloc_ptr t ∧
    stack_base_ptr t' = stack_base_ptr t ∧
    adj_stack_size t' = adj_stack_size t ∧
    (∀ q, q ≠ p → tcbs m' !! q = tcbs m !! q) ∧
    hw_sr m' = hw_sr m ∧
    g_idle_topstack m' = g_idle_topstack m.
Proof.
  intros Hlayout Hp Hpid.
  exists (put_tcb p (final_tcb k h m t) m), (final_tcb k h m t).
  split; [by apply up_initial_state_runs_to |].
  unfold final_tcb. rewrite !resolve_stack_task by done. cbn.
  repeat (split; [reflexivity |]).
  split; [| done].
  intros q Hq. by apply lookup_insert_ne.
Qed.

Lemma non_idle_call_changes_xcp_only_witness :
  layout_ok example_decls ∧
  tcbs task_machine !! 0x4000 = Some task_tcb ∧
  pid task_tcb ≠ 0 ∧
  ∃ m' t', runs_to unmasked_kconfig example_decls 0x4000 task_machine m' t' ∧
    t' = set_xcp (xcp t') task_tcb ∧
    pid t' = pid task_tcb ∧
    start t' = start task_tcb ∧
    stack_alloc_ptr t' = stack_alloc_ptr task_tcb ∧
    stack_base_ptr t' = stack_base_ptr task_tcb ∧
    adj_stack_size t' = adj_stack_size task_tcb ∧
    (∀ q, q ≠ 0x4000 → tcbs m' !! q = tcbs task_machine !! q) ∧
    hw_sr m' = hw_sr task_machine ∧
    g_idle_topstack m' = g_idle_topstack task_machine.
Proof.
  split; [layout_by_computation |]. split; [reflexivity |].
  split; [discriminate |].
  apply (non_idle_call_changes_xcp_only unmasked_kconfig example_decls
           task_machine 0x4000 task_tcb);
    [layout_by_computation | reflexivity | discriminate].
Defined.

(** C9 (totality).  Called on the address of a TCB, whatever the TCB's
    members hold, [up_initial_state] returns: it yields the unit value
    (the C function is [void]) and a final machine, and has no outcome in
    which it goes wrong. *)
Theorem up_initial_state_always_returns k h m p t :
  layout_ok h →
  tcbs m !! p = Some t →
  ∃ m', up_initial_state k h p m = Some ((), m').
Proof.
  intros Hlayout Hp. exists (put_tcb p (final_tcb k h m t) m).
  by apply up_initial_state_run.
Qed.

Lemma up_initial_state_always_returns_witness :
  layout_ok example_decls ∧
  tcbs idle_machine !! 0x4000 = Some idle_tcb ∧
  ∃ m', up_initial_state masked_kconfig example_decls 0x4000 idle_machine
          = Some ((), m').
Proof.
  split; [layout_by_computation |]. split; [reflexivity |].
  apply (up_initial_state_always_returns masked_kconfig example_decls
           idle_machine 0x4000 idle_tcb);
    [layout_by_computation | reflexivity].
Defined.

(** The two ways the model can go wrong lie outside the precondition: a
    pointer at which there is no TCB, and a register index outside the
    save area. *)
Lemma up_initial_state_dangling k h m p :
  tcbs m !! p = None → up_initial_state k h p m = None.
Proof.
  intros Hp. unfold up_initial_state, mbind, exec_bind, deref. by rewrite Hp.
Qed.

Example up_initial_state_bad_layout :
  up_initial_state unmasked_kconfig (mk_arch_decls 0x40 22 9 20 22) 0x4000
    task_machine = None.
Proof. vm_compute. reflexivity. Qed.

(** C10 (the auxiliary block sits above the initial stack pointer).  For
    the idle thread, [up_initial_state] sets [stack_alloc_ptr] and
    [stack_base_ptr] both to [g_idle_topstack -
    CONFIG_IDLETHREAD_STACKSIZE] and the stack-pointer slot to
    [g_idle_topstack - sizeof(struct task_info_s)] (32-bit arithmetic).
    When the block fits in the idle stack and the idle stack below its
    top, these are the exact differences, and the [sizeof(struct
    task_info_s)] bytes from the initial stack pointer up to
    [g_idle_topstack] are the reserved block. *)
Theorem idle_aux_block_above_sp k h m p t :
  layout_ok h →
  tcbs m !! p = Some t →
  pid t = 0 →
  ∃ m' t' sp, runs_to k h p m m' t' ∧
    regs (xcp t') !! REG_SP h = Some sp ∧
    stack_alloc_ptr t'
      = uint32 (g_idle_topstack m - CONFIG_IDLETHREAD_STACKSIZE k) ∧
    stack_base_ptr t'
      = uint32 (g_idle_topstack m - CONFIG_IDLETHREAD_STACKSIZE k) ∧
    sp = uint32 (g_idle_topstack m - sizeof_task_info_s h) ∧
    (0 <= sizeof_task_info_s h <= CONFIG_IDLETHREAD_STACKSIZE k →
     CONFIG_IDLETHREAD_STACKSIZE k <= g_idle_topstack m < 2 ^ 32 →
     stack_alloc_ptr t' = g_idle_topstack m - CONFIG_IDLETHREAD_STACKSIZE k ∧
     stack_base_ptr t' = g_idle_topstack m - CONFIG_IDLETHREAD_STACKSIZE k ∧
     sp = g_idle_topstack m - sizeof_task_info_s h ∧
     stack_base_ptr t' <= sp <= g_idle_topstack m ∧
     g_idle_topstack m - sp = sizeof_task_info_s h).
Proof.
  intros Hlayout Hp Hpid.
  destruct (final_tcb_idle k h m t Hlayout Hpid)
    as (Halloc & Hbase & Hsize & Hsp).
  exists (put_tcb p (final_tcb k h m t) m), (final_tcb k h m t),
         (uint32 (g_idle_topstack m - sizeof_task_info_s h)).
  split; [by apply up_initial_state_runs_to |].
  repeat (split; [done |]).
  intros Haux Htop. rewrite Halloc, Hbase.
  rewrite !uint32_small by (unfold is_uint32; lia). lia.
Qed.

Lemma idle_aux_block_above_sp_witness :
  layout_ok example_decls ∧
  tcbs idle_machine !! 0x4000 = Some idle_tcb ∧
  pid idle_tcb = 0 ∧
  ∃ m' t' sp, runs_to unmasked_kconfig example_decls 0x4000 idle_machine m' t' ∧
    regs (xcp t') !! REG_SP example_decls = Some sp ∧
    stack_alloc_ptr t' = uint32 (0x8000 - 0x1000) ∧
    stack_base_ptr t' = uint32 (0x8000 - 0x1000) ∧
    sp = uint32 (0x8000 - 0x40) ∧
    (0 <= 0x40 <= 0x1000 →
     0x1000 <= 0x8000 < 2 ^ 32 →
     stack_alloc_ptr t' = 0x8000 - 0x1000 ∧
     stack_base_ptr t' = 0x8000 - 0x1000 ∧
     sp = 0x8000 - 0x40 ∧
     stack_base_ptr t' <= sp <= 0x8000 ∧
     0x8000 - sp = 0x40).
Proof.
  split; [layout_by_computation |]. split; [reflexivity |].
  split; [reflexivity |].
  apply (idle_aux_block_above_sp unmasked_kconfig example_decls idle_machine
           0x4000 idle_tcb); [layout_by_computation | reflexivity | reflexivity].
Defined.

(** C1, as the code has it (idle-thread carve-out).  For the idle
    thread, after [up_initial_state] the stack size is
    [CONFIG_IDLETHREAD_STACKSIZE - sizeof(struct task_info_s)] and the
    stack starts at the bottom of the idle area, so that it ends, and the
    stack-pointer slot points, [sizeof(struct task_info_s)] bytes below
    [g_idle_topstack] (32-bit arithmetic; the exact differences when the
    block fits in the idle stack and the idle stack below its top).  The
    stack therefore reaches the top of the idle area only for an empty
    auxiliary block. *)
Theorem idle_stack_carve_out k h m p t :
  layout_ok h →
  tcbs m !! p = Some t →
  pid t = 0 →
  ∃ m' t', runs_to k h p m m' t' ∧
    adj_stack_size t'
      = uint32 (CONFIG_IDLETHREAD_STACKSIZE k - sizeof_task_info_s h) ∧
    uint32 (stack_base_ptr t' + adj_stack_size t')
      = uint32 (g_idle_topstack m - sizeof_task_info_s h) ∧
    regs (xcp t') !! REG_SP h
      = Some (uint32 (g_idle_topstack m - sizeof_task_info_s h)) ∧
    (0 <= sizeof_task_info_s h <= CONFIG_IDLETHREAD_STACKSIZE k →
     CONFIG_IDLETHREAD_STACKSIZE k <= g_idle_topstack m < 2 ^ 32 →
     adj_stack_size t'
       = CONFIG_IDLETHREAD_STACKSIZE k - sizeof_task_info_s h ∧
     stack_base_ptr t' + adj_stack_size t'
       = g_idle_topstack m - sizeof_task_info_s h ∧
     regs (xcp t') !! REG_SP h
       = Some (g_idle_topstack m - sizeof_task_info_s h) ∧
     (stack_base_ptr t' + adj_stack_size t' = g_idle_topstack m
      ↔ sizeof_task_info_s h = 0)).
Proof.
  intros Hlayout Hp Hpid.
  destruct (final_tcb_idle k h m t Hlayout Hpid)
    as (Halloc & Hbase & Hsize & Hsp).
  exists (put_tcb p (final_tcb k h m t) m), (final_tcb k h m t).
  split; [by apply up_initial_state_runs_to |].
  split; [done |].
  split.
  { rewrite Hbase, Hsize, uint32_add. f_equal. lia. }
  split; [done |].
  intros Haux Htop. rewrite Hsp, Hbase, Hsize.
  rewrite !uint32_small by (unfold is_uint32; lia).
  repeat split; try done; lia.
Qed.

Lemma idle_stack_carve_out_witness :
  layout_ok example_decls ∧
  tcbs idle_machine !! 0x4000 = Some idle_tcb ∧
  pid idle_tcb = 0 ∧
  ∃ m' t', runs_to unmasked_kconfig example_decls 0x4000 idle_machine m' t' ∧
    adj_stack_size t' = uint32 (0x1000 - 0x40) ∧
    uint32 (stack_base_ptr t' + adj_stack_size t') = uint32 (0x8000 - 0x40) ∧
    regs (xcp t') !! REG_SP example_decls = Some (uint32 (0x8000 - 0x40)) ∧
    (0 <= 0x40 <= 0x1000 →
     0x1000 <= 0x8000 < 2 ^ 32 →
     adj_stack_size t' = 0x1000 - 0x40 ∧
     stack_base_ptr t' + adj_stack_size t' = 0x8000 - 0x40 ∧
     regs (xcp t') !! REG_SP example_decls = Some (0x8000 - 0x40) ∧
     (stack_base_ptr t' + adj_stack_size t' = 0x8000 ↔ 0x40 = 0)).
Proof.
  split; [layout_by_computation |]. split; [reflexivity |].
  split; [reflexivity |].
  apply (idle_stack_carve_out unmasked_kconfig example_decls idle_machine
           0x4000 idle_tcb); [layout_by_computation | reflexivity | reflexivity].
Defined.

(** The idle scenario, evaluated: stack size [0xFC0], stack from
    [0x7000] to [0x7FC0], stack-pointer slot [0x7FC0]. *)
Example idle_scenario_outcome :
  ∃ m' t', runs_to unmasked_kconfig example_decls 0x4000 idle_machine m' t' ∧
    stack_alloc_ptr t' = 0x7000 ∧
    stack_base_ptr t' = 0x7000 ∧
    adj_stack_size t' = 0xFC0 ∧
    regs (xcp t') !! REG_SP example_decls = Some 0x7FC0.
Proof.
  eexists _, _. split; [split; [vm_compute; reflexivity | vm_compute; reflexivity] |].
  repeat split.
Qed.

(** The task scenario, evaluated under "start unmasked" with the status
    register reading [0xf3]: program counter [0x1000], stack pointer
    [0x2400], status [0x03] (mask bits clear), every other slot zero, and
    the stack members untouched. *)
Example task_scenario_outcome :
  ∃ m' t', runs_to unmasked_kconfig example_decls 0x4000 task_machine m' t' ∧
    regs (xcp t')
      = [0; 0; 0; 0; 0; 0; 0; 0; 0; 0x2400; 0; 0; 0; 0; 0; 0; 0; 0; 0; 0;
         0x1000; 0x03] ∧
    stack_alloc_ptr t' = 0x1ff0 ∧
    stack_base_ptr t' = 0x2000 ∧
    adj_stack_size t' = 0x400 ∧
    tcbs m' !! 0x5000 = Some twin_tcb.
Proof.
  eexists _, _.
  split; [split; [vm_compute; reflexivity | vm_compute; reflexivity] |].
  repeat split.
Qed.

(** C1, as stated, fails on the idle scenario.  With an idle stack of
    [0x1000] bytes, an auxiliary block of [0x40] bytes and
    [g_idle_topstack = 0x8000], the call does not leave a stack of
    [0xFC0] bytes that ends at [g_idle_topstack] with the stack-pointer
    slot at [0x8000]. *)
Lemma idle_scenario_stack_not_at_top :
  ¬ ∃ m' t', runs_to unmasked_kconfig example_decls 0x4000 idle_machine m' t' ∧
      adj_stack_size t' = 0xFC0 ∧
      stack_base_ptr t' + adj_stack_size t' = g_idle_topstack idle_machine ∧
      regs (xcp t') !! REG_SP example_decls = Some 0x8000.
Proof.
  intros (m' & t' & [Hrun Hat] & _ & Htop & _).
  vm_compute in Hrun. injection Hrun as <-.
  vm_compute in Hat. injection Hat as <-.
  discriminate Htop.
Qed.

(** ** Further properties of [up_initial_state] *)

(** The closed form reads the machine only through the status register
    and [g_idle_topstack]. *)
Lemma final_tcb_put_tcb k h p x m t :
  final_tcb k h (put_tcb p x m) t = final_tcb k h m t.
Proof. reflexivity. Qed.

Lemma final_tcb_idem k h m t :
  final_tcb k h m (final_tcb k h m t) = final_tcb k h m t.
Proof.
  unfold final_tcb.
  assert (resolve_stack k h m
            (set_xcp (mk_xcptcontext (initial_regs k h m (resolve_stack k h m t)))
                     (resolve_stack k h m t))
          = set_xcp (mk_xcptcontext (initial_regs k h m (resolve_stack k h m t)))
                    (resolve_stack k h m t)) as ->; [| reflexivity].
  unfold resolve_stack. cbn. destruct (decide (pid t = 0)) as [Hidle | Htask]; cbn.
  - by rewrite decide_True.
  - by rewrite decide_False.
Qed.

Lemma put_tcb_commute p q a b m :
  p ≠ q → put_tcb q b (put_tcb p a m) = put_tcb p a (put_tcb q b m).
Proof.
  intros Hpq. unfold put_tcb, set_tcbs; cbn. f_equal.
  by apply insert_insert_ne.
Qed.

(** X1 (idempotence).  Running [up_initial_state] a second time on the
    same TCB, on the machine the first run left, returns and changes
    nothing: the first run's outcome is a fixed point of the routine. *)
Theorem up_initial_state_idempotent k h m p t :
  layout_ok h →
  tcbs m !! p = Some t →
  ∃ m', up_initial_state k h p m = Some ((), m') ∧
        up_initial_state k h p m' = Some ((), m').
Proof.
  intros Hlayout Hp. exists (put_tcb p (final_tcb k h m t) m).
  split; [by apply up_initial_state_run |].
  rewrite (up_initial_state_run k h p (final_tcb k h m t) _ Hlayout)
    by apply put_tcb_lookup.
  by rewrite final_tcb_put_tcb, final_tcb_idem, put_tcb_put_tcb.
Qed.

Lemma up_initial_state_idempotent_witness :
  layout_ok example_decls ∧
  tcbs idle_machine !! 0x4000 = Some idle_tcb ∧
  ∃ m', up_initial_state unmasked_kconfig example_decls 0x4000 idle_machine
          = Some ((), m') ∧
        up_initial_state unmasked_kconfig example_decls 0x4000 m'
          = Some ((), m').
Proof.
  split; [layout_by_computation |]. split; [reflexivity |].
  apply (up_initial_state_idempotent unmasked_kconfig example_decls
           idle_machine 0x4000 idle_tcb);
    [layout_by_computation | reflexivity].
Defined.

(** X2 (independent TCBs commute).  Initialising two TCBs at different
    addresses gives the same machine in either order. *)
Theorem up_initial_state_commutes k h m p q tp tq :
  layout_ok h →
  p ≠ q →
  tcbs m !! p = Some tp →
  tcbs m !! q = Some tq →
  ∃ mp mq m',
    up_initial_state k h p m = Some ((), mp) ∧
    up_initial_state k h q mp = Some ((), m') ∧
    up_initial_state k h q m = Some ((), mq) ∧
    up_initial_state k h p mq = Some ((), m').
Proof.
  intros Hlayout Hpq Hp Hq.
  exists (put_tcb p (final_tcb k h m tp) m),
         (put_tcb q (final_tcb k h m tq) m),
         (put_tcb q (final_tcb k h m tq) (put_tcb p (final_tcb k h m tp) m)).
  split; [by apply up_initial_state_run |].
  split.
  { rewrite (up_initial_state_run k h q tq _ Hlayout)
      by (by rewrite put_tcb_lookup_ne).
    by rewrite final_tcb_put_tcb. }
  split; [by apply up_initial_state_run |].
  rewrite (up_initial_state_run k h p tp _ Hlayout)
    by (by rewrite put_tcb_lookup_ne).
  by rewrite final_tcb_put_tcb, put_tcb_commute.
Qed.

Lemma up_initial_state_commutes_witness :
  layout_ok example_decls ∧
  0x4000 ≠ 0x5000 ∧
  tcbs task_machine !! 0x4000 = Some task_tcb ∧
  tcbs task_machine !! 0x5000 = Some twin_tcb ∧
  ∃ mp mq m',
    up_initial_state masked_kconfig example_decls 0x4000 task_machine
      = Some ((), mp) ∧
    up_initial_state masked_kconfig example_decls 0x5000 mp = Some ((), m') ∧
    up_initial_state masked_kconfig example_decls 0x5000 task_machine
      = Some ((), mq) ∧
    up_initial_state masked_kconfig example_decls 0x4000 mq = Some ((), m').
Proof.
  split; [layout_by_computation |]. split; [discriminate |].
  split; [reflexivity |]. split; [reflexivity |].
  apply (up_initial_state_commutes masked_kconfig example_decls task_machine
           0x4000 0x5000 task_tcb twin_tcb);
    [layout_by_computation | discriminate | reflexivity | reflexivity].
Defined.

(** X3 (the idle thread's previous stack members are discarded).  For
    the idle thread the call keeps pid and entry, leaves every other TCB,
    the status register and [g_idle_topstack] alone, and produces the same
    machine whatever [stack_alloc_ptr], [stack_base_ptr], [adj_stack_size]
    and the save area held on entry. *)
Theorem idle_call_discards_stack_members k h m p t a b s x :
  layout_ok h →
  tcbs m !! p = Some t →
  pid t = 0 →
  ∃ m' t', runs_to k h p m m' t' ∧
    pid t' = pid t ∧
    start t' = start t ∧
    (∀ q, q ≠ p → tcbs m' !! q = tcbs m !! q) ∧
    hw_sr m' = hw_sr m ∧
    g_idle_topstack m' = g_idle_topstack m ∧
    up_initial_state k h p (put_tcb p (mk_tcb (pid t) (start t) a b s x) m)
      = Some ((), m').
Proof.
  intros Hlayout Hp Hpid.
  exists (put_tcb p (final_tcb k h m t) m), (final_tcb k h m t).
  split; [by apply up_initial_state_runs_to |].
  split; [cbn; apply resolve_stack_pid |].
  split; [cbn; apply resolve_stack_start |].
  split; [intros q Hq; by apply lookup_insert_ne |].
  split; [done |]. split; [done |].
  rewrite (up_initial_state_run k h p (mk_tcb (pid t) (start t) a b s x) _ Hlayout)
    by apply put_tcb_lookup.
  rewrite final_tcb_put_tcb, put_tcb_put_tcb. do 3 f_equal.
  unfold final_tcb. rewrite !resolve_stack_idle by done. reflexivity.
Qed.

Lemma idle_call_discards_stack_members_witness :
  layout_ok example_decls ∧
  tcbs idle_machine !! 0x4000 = Some idle_tcb ∧
  pid idle_tcb = 0 ∧
  ∃ m' t', runs_to unmasked_kconfig example_decls 0x4000 idle_machine m' t' ∧
    pid t' = pid idle_tcb ∧
    start t' = start idle_tcb ∧
    (∀ q, q ≠ 0x4000 → tcbs m' !! q = tcbs idle_machine !! q) ∧
    hw_sr m' = hw_sr idle_machine ∧
    g_idle_topstack m' = g_idle_topstack idle_machine ∧
    up_initial_state unmasked_kconfig example_decls 0x4000
      (put_tcb 0x4000
         (mk_tcb (pid idle_tcb) (start idle_tcb) 0x9000 0x9010 0x200
                 (mk_xcptcontext (replicate 22 0x55aa55aa)))
         idle_machine)
      = Some ((), m').
Proof.
  split; [layout_by_computation |]. split; [reflexivity |].
  split; [reflexivity |].
  apply (idle_call_discards_stack_members unmasked_kconfig example_decls
           idle_machine 0x4000 idle_tcb 0x9000 0x9010 0x200
           (mk_xcptcontext (replicate 22 0x55aa55aa)));
    [layout_by_computation | reflexivity | reflexivity].
Defined.




(** X5 (idle stack smaller than the auxiliary block).  The size
    subtraction is unsigned and unguarded: when
    [CONFIG_IDLETHREAD_STACKSIZE] is less than [sizeof(struct
    task_info_s)], the idle thread's [adj_stack_size] wraps round to
    [2^32 - (sizeof(struct task_info_s) - CONFIG_IDLETHREAD_STACKSIZE)]
    and the initial stack pointer lies below [stack_base_ptr], outside
    the idle stack area. *)
Theorem cramped_idle_stack_wraps k h m p t :
  layout_ok h →
  tcbs m !! p = Some t →
  pid t = 0 →
  0 <= CONFIG_IDLETHREAD_STACKSIZE k < sizeof_task_info_s h →
  sizeof_task_info_s h <= g_idle_topstack m < 2 ^ 32 →
  ∃ m' t' sp, runs_to k h p m m' t' ∧
    regs (xcp t') !! REG_SP h = Some sp ∧
    adj_stack_size t'
      = 2 ^ 32 - (sizeof_task_info_s h - CONFIG_IDLETHREAD_STACKSIZE k) ∧
    stack_base_ptr t' = g_idle_topstack m - CONFIG_IDLETHREAD_STACKSIZE k ∧
    sp = g_idle_topstack m - sizeof_task_info_s h ∧
    sp < stack_base_ptr t'.
Proof.
  intros Hlayout Hp Hpid Hsmall Htop.
  destruct (final_tcb_idle k h m t Hlayout Hpid)
    as (Halloc & Hbase & Hsize & Hsp).
  exists (put_tcb p (final_tcb k h m t) m), (final_tcb k h m t),
         (g_idle_topstack m - sizeof_task_info_s h).
  split; [by apply up_initial_state_runs_to |].
  split; [rewrite Hsp, uint32_small; [done | unfold is_uint32; lia] |].
  rewrite Hsize, Hbase.
  rewrite (uint32_small (g_idle_topstack m - _)) by (unfold is_uint32; lia).
  assert (uint32 (CONFIG_IDLETHREAD_STACKSIZE k - sizeof_task_info_s h)
          = 2 ^ 32 - (sizeof_task_info_s h - CONFIG_IDLETHREAD_STACKSIZE k))
    as ->.
  { unfold uint32. symmetry.
    apply (Z.mod_unique_pos _ _ (-1)); lia. }
  repeat split; lia.
Qed.

Lemma cramped_idle_stack_wraps_witness :
  layout_ok example_decls ∧
  tcbs idle_machine !! 0x4000 = Some idle_tcb ∧
  pid idle_tcb = 0 ∧
  0 <= 0x20 < 0x40 ∧
  0x40 <= 0x8000 < 2 ^ 32 ∧
  ∃ m' t' sp, runs_to cramped_kconfig example_decls 0x4000 idle_machine m' t' ∧
    regs (xcp t') !! REG_SP example_decls = Some sp ∧
    adj_stack_size t' = 2 ^ 32 - (0x40 - 0x20) ∧
    stack_base_ptr t' = 0x8000 - 0x20 ∧
    sp = 0x8000 - 0x40 ∧
    sp < stack_base_ptr t'.
Proof.
  split; [layout_by_computation |]. split; [reflexivity |].
  split; [reflexivity |]. split; [lia |]. split; [lia |].
  apply (cramped_idle_stack_wraps cramped_kconfig example_decls idle_machine
           0x4000 idle_tcb);
    [layout_by_computation | reflexivity | reflexivity | cbn; lia | cbn; lia].
Defined.

(** The stored status word with and without suppression, compared. *)
Lemma uint32_lor_land_imask sr :
  uint32 (Z.lor sr SR_IMASK)
  = Z.lor (uint32 (Z.land sr (Z.lnot SR_IMASK))) SR_IMASK.
Proof.
  apply Z.bits_inj'. intros n Hn.
  rewrite lor_imask_testbit, !uint32_testbit by done.
  rewrite lor_imask_testbit, land_not_imask_testbit by done.
  destruct (Z.ltb_spec n 32), (Z.leb_spec 4 n), (Z.ltb_spec n 8);
    cbn; done || lia.
Qed.

Lemma uint32_land_lor_imask sr :
  uint32 (Z.land sr (Z.lnot SR_IMASK))
  = Z.land (uint32 (Z.lor sr SR_IMASK)) (Z.lnot SR_IMASK).
Proof.
  apply Z.bits_inj'. intros n Hn.
  rewrite land_not_imask_testbit, !uint32_testbit by done.
  rewrite lor_imask_testbit, land_not_imask_testbit by done.
  destruct (Z.ltb_spec n 32), (Z.leb_spec 4 n), (Z.ltb_spec n 8);
    cbn; done || lia.
Qed.

Lemma land_imask_cleared sr :
  Z.land (uint32 (Z.land sr (Z.lnot SR_IMASK))) SR_IMASK = 0.
Proof.
  apply Z.bits_inj'. intros n Hn.
  rewrite Z.land_spec, uint32_testbit, land_not_imask_testbit by done.
  rewrite SR_IMASK_testbit, Z.bits_0 by done.
  destruct (n <? 32), ((4 <=? n) && (n <? 8)), (Z.testbit sr n); done.
Qed.

Lemma resolve_stack_same_stacksize k1 k2 h m t :
  CONFIG_IDLETHREAD_STACKSIZE k1 = CONFIG_IDLETHREAD_STACKSIZE k2 →
  resolve_stack k1 h m t = resolve_stack k2 h m t.
Proof. intros Hsize. unfold resolve_stack. by rewrite Hsize. Qed.

(** X6 (what [CONFIG_SUPPRESS_INTERRUPTS] changes).  Two builds that
    differ only in [CONFIG_SUPPRESS_INTERRUPTS], run on the same TCB and
    machine, leave TCBs that agree in every member and every slot except
    the status slot, and there the suppressed build's word is the other
    build's word with [0xf0] added: the option sets the four mask bits and
    nothing else. *)
Theorem suppress_option_sets_mask_bits_only k1 k2 h m p t :
  layout_ok h →
  tcbs m !! p = Some t →
  CONFIG_IDLETHREAD_STACKSIZE k1 = CONFIG_IDLETHREAD_STACKSIZE k2 →
  CONFIG_SUPPRESS_INTERRUPTS k1 = true →
  CONFIG_SUPPRESS_INTERRUPTS k2 = false →
  ∃ m1 t1 v1 m2 t2 v2,
    runs_to k1 h p m m1 t1 ∧
    runs_to k2 h p m m2 t2 ∧
    regs (xcp t1) !! REG_SR h = Some v1 ∧
    regs (xcp t2) !! REG_SR h = Some v2 ∧
    v1 = Z.lor v2 0xf0 ∧
    v2 = Z.land v1 (Z.lnot 0xf0) ∧
    v1 = v2 + 0xf0 ∧
    (∀ i : nat, i ≠ REG_SR h → regs (xcp t1) !! i = regs (xcp t2) !! i) ∧
    t1 = set_xcp (xcp t1) t2.
Proof.
  intros Hlayout Hp Hsize Hon Hoff.
  exists (put_tcb p (final_tcb k1 h m t) m), (final_tcb k1 h m t),
         (initial_sr k1 (hw_sr m)),
         (put_tcb p (final_tcb k2 h m t) m), (final_tcb k2 h m t),
         (initial_sr k2 (hw_sr m)).
  split; [by apply up_initial_state_runs_to |].
  split; [by apply up_initial_state_runs_to |].
  split; [cbn; by apply initial_regs_sr |].
  split; [cbn; by apply initial_regs_sr |].
  unfold initial_sr. rewrite Hon, Hoff.
  split; [apply uint32_lor_land_imask |].
  split; [apply uint32_land_lor_imask |].
  split.
  { rewrite uint32_lor_land_imask.
    transitivity (Z.lxor (uint32 (Z.land (hw_sr m) (Z.lnot SR_IMASK))) SR_IMASK).
    - symmetry. apply Z.lxor_lor, land_imask_cleared.
    - symmetry. apply (Z.add_nocarry_lxor _ SR_IMASK), land_imask_cleared. }
  unfold final_tcb.
  rewrite (resolve_stack_same_stacksize k1 k2 h m t Hsize).
  split; [| reflexivity].
  intros i Hi. cbn. unfold initial_regs.
  by rewrite !(list_lookup_insert_ne _ (REG_SR h) i).
Qed.

Lemma suppress_option_sets_mask_bits_only_witness :
  layout_ok example_decls ∧
  tcbs task_machine !! 0x4000 = Some task_tcb ∧
  CONFIG_IDLETHREAD_STACKSIZE masked_kconfig
    = CONFIG_IDLETHREAD_STACKSIZE unmasked_kconfig ∧
  CONFIG_SUPPRESS_INTERRUPTS masked_kconfig = true ∧
  CONFIG_SUPPRESS_INTERRUPTS unmasked_kconfig = false ∧
  ∃ m1 t1 v1 m2 t2 v2,
    runs_to masked_kconfig example_decls 0x4000 task_machine m1 t1 ∧
    runs_to unmasked_kconfig example_decls 0x4000 task_machine m2 t2 ∧
    regs (xcp t1) !! REG_SR example_decls = Some v1 ∧
    regs (xcp t2) !! REG_SR example_decls = Some v2 ∧
    v1 = Z.lor v2 0xf0 ∧
    v2 = Z.land v1 (Z.lnot 0xf0) ∧
    v1 = v2 + 0xf0 ∧
    (∀ i : nat, i ≠ REG_SR example_decls →
       regs (xcp t1) !! i = regs (xcp t2) !! i) ∧
    t1 = set_xcp (xcp t1) t2.
Proof.
  split; [layout_by_computation |]. split; [reflexivity |].
  split; [reflexivity |]. split; [reflexivity |]. split; [reflexivity |].
  apply (suppress_option_sets_mask_bits_only masked_kconfig unmasked_kconfig
           example_decls task_machine 0x4000 task_tcb);
    [layout_by_computation | reflexivity | reflexivity | reflexivity
    | reflexivity].
Defined.

Lemma idle_sp_value top size aux :
  uint32 (uint32 (uint32 (top - size)) + uint32 (size - aux))
  = uint32 (top - aux).
Proof. rewrite uint32_add_l, uint32_add. f_equal. lia. Qed.

(** X7 (the idle stack size does not move the initial stack pointer).
    For the idle thread, two builds that differ in
    [CONFIG_IDLETHREAD_STACKSIZE] leave the same register context image:
    the configured size moves the stack base and the stack size, and their
    sum, the initial stack pointer, stays at [g_idle_topstack -
    sizeof(struct task_info_s)]. *)
Theorem idle_image_ignores_stack_size k1 k2 h m p t :
  layout_ok h →
  tcbs m !! p = Some t →
  pid t = 0 →
  CONFIG_SUPPRESS_INTERRUPTS k1 = CONFIG_SUPPRESS_INTERRUPTS k2 →
  ∃ m1 t1 m2 t2,
    runs_to k1 h p m m1 t1 ∧
    runs_to k2 h p m m2 t2 ∧
    xcp t1 = xcp t2 ∧
    stack_base_ptr t1
      = uint32 (g_idle_topstack m - CONFIG_IDLETHREAD_STACKSIZE k1) ∧
    stack_base_ptr t2
      = uint32 (g_idle_topstack m - CONFIG_IDLETHREAD_STACKSIZE k2).
Proof.
  intros Hlayout Hp Hpid Hsuppress.
  exists (put_tcb p (final_tcb k1 h m t) m), (final_tcb k1 h m t),
         (put_tcb p (final_tcb k2 h m t) m), (final_tcb k2 h m t).
  split; [by apply up_initial_state_runs_to |].
  split; [by apply up_initial_state_runs_to |].
  unfold final_tcb. rewrite !resolve_stack_idle by done. cbn.
  split; [| done].
  f_equal. unfold initial_regs, initial_sr. cbn. rewrite Hsuppress.
  by rewrite !idle_sp_value.
Qed.

Lemma idle_image_ignores_stack_size_witness :
  layout_ok example_decls ∧
  tcbs idle_machine !! 0x4000 = Some idle_tcb ∧
  pid idle_tcb = 0 ∧
  CONFIG_SUPPRESS_INTERRUPTS unmasked_kconfig
    = CONFIG_SUPPRESS_INTERRUPTS wide_kconfig ∧
  ∃ m1 t1 m2 t2,
    runs_to unmasked_kconfig example_decls 0x4000 idle_machine m1 t1 ∧
    runs_to wide_kconfig example_decls 0x4000 idle_machine m2 t2 ∧
    xcp t1 = xcp t2 ∧
    stack_base_ptr t1 = uint32 (0x8000 - 0x1000) ∧
    stack_base_ptr t2 = uint32 (0x8000 - 0x2000).
Proof.
  split; [layout_by_computation |]. split; [reflexivity |].
  split; [reflexivity |]. split; [reflexivity |].
  apply (idle_image_ignores_stack_size unmasked_kconfig wide_kconfig
           example_decls idle_machine 0x4000 idle_tcb);
    [layout_by_computation | reflexivity | reflexivity | reflexivity].
Defined.

Lemma layout_ok_set_sizeof aux h :
  layout_ok h → layout_ok (set_sizeof_task_info_s aux h).
Proof. intros [Hsp Hpc Hsr Hsp_pc Hsp_sr Hpc_sr]. by constructor. Qed.

(** X8 (ordinary tasks never depend on the idle-stack configuration).
    For a TCB whose pid is not zero, the TCB the call leaves is the same
    whatever [CONFIG_IDLETHREAD_STACKSIZE], [sizeof(struct task_info_s)]
    and [g_idle_topstack] are: changing all three changes nothing in the
    outcome. *)
Theorem non_idle_call_ignores_idle_configuration k1 k2 h aux top m p t :
  layout_ok h →
  tcbs m !! p = Some t →
  pid t ≠ 0 →
  CONFIG_SUPPRESS_INTERRUPTS k1 = CONFIG_SUPPRESS_INTERRUPTS k2 →
  ∃ m1 m2 t',
    runs_to k1 h p m m1 t' ∧
    runs_to k2 (set_sizeof_task_info_s aux h) p
            (set_g_idle_topstack top m) m2 t'.
Proof.
  intros Hlayout Hp Hpid Hsuppress.
  exists (put_tcb p (final_tcb k1 h m t) m),
         (put_tcb p (final_tcb k2 (set_sizeof_task_info_s aux h)
                               (set_g_idle_topstack top m) t)
                  (set_g_idle_topstack top m)),
         (final_tcb k1 h m t).
  split; [by apply up_initial_state_runs_to |].
  assert (final_tcb k1 h m t
          = final_tcb k2 (set_sizeof_task_info_s aux h)
                      (set_g_idle_topstack top m) t) as ->.
  { unfold final_tcb. rewrite !resolve_stack_task by done.
    unfold initial_regs, initial_sr. cbn. by rewrite Hsuppress. }
  apply up_initial_state_runs_to; [by apply layout_ok_set_sizeof | done].
Qed.

Lemma non_idle_call_ignores_idle_configuration_witness :
  layout_ok example_decls ∧
  tcbs task_machine !! 0x4000 = Some task_tcb ∧
  pid task_tcb ≠ 0 ∧
  CONFIG_SUPPRESS_INTERRUPTS unmasked_kconfig
    = CONFIG_SUPPRESS_INTERRUPTS cramped_kconfig ∧
  ∃ m1 m2 t',
    runs_to unmasked_kconfig example_decls 0x4000 task_machine m1 t' ∧
    runs_to cramped_kconfig (set_sizeof_task_info_s 0x100 example_decls)
            0x4000 (set_g_idle_topstack 0xffff0000 task_machine) m2 t'.
Proof.
  split; [layout_by_computation |]. split; [reflexivity |].
  split; [discriminate |]. split; [reflexivity |].
  apply (non_idle_call_ignores_idle_configuration unmasked_kconfig
           cramped_kconfig example_decls 0x100 0xffff0000 task_machine
           0x4000 task_tcb);
    [layout_by_computation | reflexivity | discriminate | reflexivity].
Defined.

(** Applying the interrupt policy to a word it produced gives that word
    back. *)
Lemma initial_sr_idem k sr : initial_sr k (initial_sr k sr) = initial_sr k sr.
Proof.
  apply Z.bits_inj'. intros n Hn.
  destruct (Z.ltb_spec n 32) as [Hlt | Hge].
  - rewrite !initial_sr_testbit by lia.
    by destruct ((4 <=? n) && (n <? 8)).
  - unfold initial_sr at 1. rewrite uint32_testbit by done.
    unfold initial_sr. rewrite uint32_testbit by done.
    replace (n <? 32) with false by (symmetry; apply Z.ltb_ge; lia).
    done.
Qed.

(** X9 (the initial status word is inherited unchanged).  Let [v] be the
    status word the call stores.  On any machine whose status register
    reads [v], as when a thread started with this image creates a thread
    in turn, the call stores [v] again. *)
Theorem initial_status_word_is_stable k h m p t :
  layout_ok h →
  tcbs m !! p = Some t →
  ∃ m' t' v, runs_to k h p m m' t' ∧
    regs (xcp t') !! REG_SR h = Some v ∧
    ∀ m2 q t2,
      tcbs m2 !! q = Some t2 →
      up_getsr m2 = Some (v, m2) →
      ∃ m2' t2', runs_to k h q m2 m2' t2' ∧
        regs (xcp t2') !! REG_SR h = Some v.
Proof.
  intros Hlayout Hp.
  exists (put_tcb p (final_tcb k h m t) m), (final_tcb k h m t),
         (initial_sr k (hw_sr m)).
  split; [by apply up_initial_state_runs_to |].
  split; [cbn; by apply initial_regs_sr |].
  intros m2 q t2 Hq Hsr.
  assert (hw_sr m2 = initial_sr k (hw_sr m)) as Hread
    by (unfold up_getsr in Hsr; congruence).
  exists (put_tcb q (final_tcb k h m2 t2) m2), (final_tcb k h m2 t2).
  split; [by apply up_initial_state_runs_to |].
  cbn. rewrite initial_regs_sr by done. by rewrite Hread, initial_sr_idem.
Qed.

Lemma initial_status_word_is_stable_witness :
  layout_ok example_decls ∧
  tcbs task_machine !! 0x4000 = Some task_tcb ∧
  ∃ m' t' v, runs_to masked_kconfig example_decls 0x4000 task_machine m' t' ∧
    regs (xcp t') !! REG_SR example_decls = Some v ∧
    ∀ m2 q t2,
      tcbs m2 !! q = Some t2 →
      up_getsr m2 = Some (v, m2) →
      ∃ m2' t2', runs_to masked_kconfig example_decls q m2 m2' t2' ∧
        regs (xcp t2') !! REG_SR example_decls = Some v.
Proof.
  split; [layout_by_computation |]. split; [reflexivity |].
  apply (initial_status_word_is_stable masked_kconfig example_decls
           task_machine 0x4000 task_tcb);
    [layout_by_computation | reflexivity].
Defined.
